(** * Conjugate posteriors of a Gaussian with known standard deviation

    A shallow embedding of
    [tensorflow/contrib/distributions/python/ops/gaussian_conjugate_posteriors.py]
    and the properties of its two functions, [known_sigma_posterior] and
    [known_sigma_predictive].

    The two functions are straight-line Python: two dynamic type checks that
    raise [TypeError], then a fixed sequence of calls into the numeric-array
    runtime ([math_ops] and the arithmetic operators of tensors), then the
    construction of a [Gaussian].  The runtime itself is not part of this
    module, so it enters the development as two interfaces: the arithmetic of
    tensors ([Runtime]) and the operands a runtime refuses, raising an
    exception of its own in the middle of the computation ([RuntimeChecks]).
    The results that only depend on the control flow are proved for every
    runtime, the formulas for a runtime that accepts the operands it is given,
    the algebraic ones at the runtime of exact real scalars, and a runtime of
    binary64 scalars is there to run the code. *)

From Stdlib Require Import Bool List String ZArith QArith Qreals Reals Lra.
From Stdlib Require Import Uint63 Floats.
Import ListNotations.

(** ** Element types *)

(** The element types ([dtype]) of tensors that matter here: the floating
    types a [Gaussian] may have and the integer types of a count. *)
Inductive DType : Type :=
| float32
| float64
| int32
| int64.

Definition DType_eqb (a b : DType) : bool :=
  match a, b with
  | float32, float32 | float64, float64 | int32, int32 | int64, int64 => true
  | _, _ => false
  end.

(** Modelled from the spec: the text an element type is printed as by [%s];
    the class of element types is not in this module, and the spec asks only
    that the text identifies the type. *)
Definition DType_str (d : DType) : string :=
  match d with
  | float32 => "float32"
  | float64 => "float64"
  | int32 => "int32"
  | int64 => "int64"
  end%string.

(** ** Exceptions, the graph, and the monad of the code *)

(** Both [raise] statements of the source raise Python's [TypeError]; the two
    failure kinds of the spec differ by their message only. *)
Inductive PyError : Type :=
| TypeError (msg : string).

Definition PyError_msg (e : PyError) : string :=
  match e with TypeError msg => msg end.

(** The numeric operations the code asks of the runtime.  Every call adds an
    operation to the graph under construction, which is the one effect of the
    code besides raising. *)
Inductive MathOp : Type :=
| OpCast
| OpSquare
| OpSqrt
| OpAdd
| OpMul
| OpTrueDiv.

Definition Graph : Type := list MathOp.

(** A computation starts from a graph and ends with an exception or a value,
    and with the graph as it was left. *)
Definition Py (A : Type) : Type := Graph -> (PyError + A) * Graph.

Definition ret {A : Type} (a : A) : Py A := fun G => (inr a, G).

Definition bind {A B : Type} (c : Py A) (k : A -> Py B) : Py B :=
  fun G =>
    match c G with
    | (inl e, G') => (inl e, G')
    | (inr a, G') => k a G'
    end.

Definition raise {A : Type} (e : PyError) : Py A := fun G => (inl e, G).

(** The runtime computes [v] by the operation [op]. *)
Definition emit {A : Type} (op : MathOp) (v : A) : Py A :=
  fun G => (inr v, G ++ [op]).

Declare Scope py_scope.
Delimit Scope py_scope with py.
Notation "x <- c ;; k" := (bind c (fun x => k))
  (at level 61, c at next level, right associativity) : py_scope.

(** ** The numeric-array runtime *)

(** What the code uses of tensors: the element type, the cast, the
    elementwise square and square root of [math_ops], and the operators [+],
    [*], [/] of two tensors and [/] with a Python number on the left
    ([__rtruediv__]).  The literals [1.0] and [1] of the source are Python
    numbers of value one, held here as rationals; the runtime turns them into
    a tensor of the element type of the other operand.  Broadcasting is the
    runtime's business: the operations take and return whole tensors.  This
    is the arithmetic alone, total as arithmetic that answers a division by
    zero with an infinity or a NaN is; the operands a runtime will not
    combine at all are the matter of [RuntimeChecks] below. *)
Class Runtime (T : Type) : Type := {
  dtype : T -> DType;
  rt_cast : T -> DType -> T;
  rt_square : T -> T;
  rt_sqrt : T -> T;
  rt_add : T -> T -> T;
  rt_mul : T -> T -> T;
  rt_truediv : T -> T -> T;
  rt_rtruediv : T -> Q -> T
}.

(** A runtime does not take every operand: tensors of two element types, or
    of shapes that do not broadcast, make the operation raise an exception of
    the runtime's own.  [rt_refuses op args] is that exception when the
    runtime refuses the tensor operands [args] of the operation [op], and
    [None] when it accepts them. *)
Class RuntimeChecks (T : Type) : Type := {
  rt_refuses : MathOp -> list T -> option PyError
}.

(** A call into the runtime: the exception of the runtime when it refuses the
    operands, the graph being left with the operations that came before; the
    value [v], computed by one more operation of the graph, when it accepts
    them. *)
Definition call {T : Type} {RC : RuntimeChecks T}
    (op : MathOp) (args : list T) (v : T) : Py T :=
  match rt_refuses op args with
  | Some e => raise e
  | None => emit op v
  end.

(** [math_ops.cast], [math_ops.square] and [math_ops.sqrt]. *)
Module math_ops.
Section Ops.
Context {T : Type} {RT : Runtime T} {RC : RuntimeChecks T}.

Definition cast (x : T) (d : DType) : Py T := call OpCast [x] (rt_cast x d).
Definition square (x : T) : Py T := call OpSquare [x] (rt_square x).
Definition sqrt (x : T) : Py T := call OpSqrt [x] (rt_sqrt x).
End Ops.
End math_ops.

(** The arithmetic operators of tensors: [x + y], [x * y], [x / y], and
    [c / x] for a Python number [c]. *)
Module Tensor.
Section Ops.
Context {T : Type} {RT : Runtime T} {RC : RuntimeChecks T}.

Definition add (x y : T) : Py T := call OpAdd [x; y] (rt_add x y).
Definition mul (x y : T) : Py T := call OpMul [x; y] (rt_mul x y).
Definition truediv (x y : T) : Py T := call OpTrueDiv [x; y] (rt_truediv x y).
Definition rtruediv (c : Q) (x : T) : Py T :=
  call OpTrueDiv [x] (rt_rtruediv x c).
End Ops.
End Tensor.

(** ** The Gaussian class and the values a caller may pass as [prior] *)

(** Modelled from the spec: the class [Gaussian] is imported by this module,
    not defined in it.  The code reads [prior.mu], [prior.sigma] and
    [prior.dtype] and builds its result with [Gaussian(mu=..., sigma=...)];
    the spec describes a value with a mean and a standard deviation of one
    shared element type and a constructor taking the two. *)
Record Gaussian (T : Type) : Type := {
  mu : T;
  sigma : T
}.

(** Python is dynamically typed: [prior] may be any object.  Besides a
    [Gaussian], a tensor, a tuple of numbers and [None] stand for the objects
    that are not one. *)
Inductive PyObject (T : Type) : Type :=
| PyGaussian (g : Gaussian T)
| PyTensor (t : T)
| PyTuple (items : list Q)
| PyNone.

Arguments Build_Gaussian {T} mu sigma.
Arguments mu {T} g.
Arguments sigma {T} g.
Arguments PyGaussian {T} g.
Arguments PyTensor {T} t.
Arguments PyTuple {T} items.
Arguments PyNone {T}.

Section Code.
Context {T : Type} {RT : Runtime T} {RC : RuntimeChecks T}.

(** The attributes [g.mu], [g.sigma] and [g.dtype]; the last is the shared
    element type, read off the mean. *)
Definition Gaussian_mu (g : Gaussian T) : T := mu g.
Definition Gaussian_sigma (g : Gaussian T) : T := sigma g.
Definition Gaussian_dtype (g : Gaussian T) : DType := dtype (mu g).

(** [isinstance(prior, Gaussian)], giving the instance when there is one. *)
Definition as_Gaussian (prior : PyObject T) : option (Gaussian T) :=
  match prior with
  | PyGaussian g => Some g
  | _ => None
  end.

Definition isinstance_Gaussian (prior : PyObject T) : bool :=
  match as_Gaussian prior with
  | Some _ => true
  | None => false
  end.

Definition prior_type_msg : string :=
  "Expected prior to be an instance of type Gaussian".

(** ["Observation sum s.dtype does not match prior dtype: %s vs. %s"
     % (s.dtype, prior.dtype)] *)
Definition dtype_mismatch_msg (s_dtype prior_dtype : DType) : string :=
  ("Observation sum s.dtype does not match prior dtype: "
     ++ DType_str s_dtype ++ " vs. " ++ DType_str prior_dtype)%string.

Local Open Scope py_scope.

(** [known_sigma_posterior(prior, sigma, s, n)], statement by statement;
    the operands of an expression are evaluated left to right, and [n] is
    rebound by the cast as in the source. *)
Definition known_sigma_posterior
    (prior : PyObject T) (sigma s n : T) : Py (Gaussian T) :=
  match as_Gaussian prior with
  | None => raise (TypeError prior_type_msg)
  | Some prior =>
    if negb (DType_eqb (dtype s) (Gaussian_dtype prior)) then
      raise (TypeError (dtype_mismatch_msg (dtype s) (Gaussian_dtype prior)))
    else
      n <- math_ops.cast n (Gaussian_dtype prior) ;;
      sigma0_2 <- math_ops.square (Gaussian_sigma prior) ;;
      sigma_2 <- math_ops.square sigma ;;
      inv0 <- Tensor.rtruediv 1 sigma0_2 ;;
      prec <- Tensor.truediv n sigma_2 ;;
      total <- Tensor.add inv0 prec ;;
      sigmap_2 <- Tensor.rtruediv 1 total ;;
      w0 <- Tensor.truediv (Gaussian_mu prior) sigma0_2 ;;
      w <- Tensor.truediv s sigma_2 ;;
      wsum <- Tensor.add w0 w ;;
      mu' <- Tensor.mul wsum sigmap_2 ;;
      sigma' <- math_ops.sqrt sigmap_2 ;;
      ret {| mu := mu'; sigma := sigma' |}
  end.

(** [known_sigma_predictive(prior, sigma, s, n)]: the same statements, the
    standard deviation being the square root of [sigmap_2 + sigma_2]. *)
Definition known_sigma_predictive
    (prior : PyObject T) (sigma s n : T) : Py (Gaussian T) :=
  match as_Gaussian prior with
  | None => raise (TypeError prior_type_msg)
  | Some prior =>
    if negb (DType_eqb (dtype s) (Gaussian_dtype prior)) then
      raise (TypeError (dtype_mismatch_msg (dtype s) (Gaussian_dtype prior)))
    else
      n <- math_ops.cast n (Gaussian_dtype prior) ;;
      sigma0_2 <- math_ops.square (Gaussian_sigma prior) ;;
      sigma_2 <- math_ops.square sigma ;;
      inv0 <- Tensor.rtruediv 1 sigma0_2 ;;
      prec <- Tensor.truediv n sigma_2 ;;
      total <- Tensor.add inv0 prec ;;
      sigmap_2 <- Tensor.rtruediv 1 total ;;
      w0 <- Tensor.truediv (Gaussian_mu prior) sigma0_2 ;;
      w <- Tensor.truediv s sigma_2 ;;
      wsum <- Tensor.add w0 w ;;
      mu' <- Tensor.mul wsum sigmap_2 ;;
      var' <- Tensor.add sigmap_2 sigma_2 ;;
      sigma' <- math_ops.sqrt var' ;;
      ret {| mu := mu'; sigma := sigma' |}
  end.

(** The operations each function asks of the runtime when it does not
    raise, in order. *)
Definition posterior_ops : Graph :=
  [OpCast; OpSquare; OpSquare; OpTrueDiv; OpTrueDiv; OpAdd; OpTrueDiv;
   OpTrueDiv; OpTrueDiv; OpAdd; OpMul; OpSqrt].

Definition predictive_ops : Graph :=
  [OpCast; OpSquare; OpSquare; OpTrueDiv; OpTrueDiv; OpAdd; OpTrueDiv;
   OpTrueDiv; OpTrueDiv; OpAdd; OpMul; OpAdd; OpSqrt].

(** ** The operations as the specification words them *)

(** The spec gives each result by formulas over [sigma0_sq], [sigma_sq] and
    [sigmap_sq]; they are written here as it states them, over the same
    runtime, to be compared with what the code computes. *)
Definition sigma0_sq (prior : Gaussian T) : T := rt_square (Gaussian_sigma prior).

Definition sigma_sq (sigma : T) : T := rt_square sigma.

(** [sigmap_sq = 1 / (1/sigma0_sq + n/sigma_sq)], [n] cast to the element
    type of the prior. *)
Definition sigmap_sq (prior : Gaussian T) (sigma n : T) : T :=
  rt_rtruediv
    (rt_add (rt_rtruediv (sigma0_sq prior) 1)
            (rt_truediv (rt_cast n (Gaussian_dtype prior)) (sigma_sq sigma)))
    1.

(** [mu' = (prior.mean/sigma0_sq + s/sigma_sq) * sigmap_sq] *)
Definition posterior_mean_spec (prior : Gaussian T) (sigma s n : T) : T :=
  rt_mul
    (rt_add (rt_truediv (Gaussian_mu prior) (sigma0_sq prior))
            (rt_truediv s (sigma_sq sigma)))
    (sigmap_sq prior sigma n).

Definition PosteriorMean (prior : Gaussian T) (sigma s n : T) : Gaussian T :=
  {| mu := posterior_mean_spec prior sigma s n;
     sigma := rt_sqrt (sigmap_sq prior sigma n) |}.

Definition PosteriorPredictive
    (prior : Gaussian T) (sigma s n : T) : Gaussian T :=
  {| mu := posterior_mean_spec prior sigma s n;
     sigma := rt_sqrt (rt_add (sigmap_sq prior sigma n) (sigma_sq sigma)) |}.

(** The two failure kinds of the spec, as the exceptions of the code. *)
Definition InvalidPriorType : PyError := TypeError prior_type_msg.

Definition ElementTypeMismatch (s_dtype prior_dtype : DType) : PyError :=
  TypeError (dtype_mismatch_msg s_dtype prior_dtype).

End Code.

(** The runtime that accepts every operand, which is what a runtime does on
    the inputs of the contract: [sigma] of the prior's element type, shapes
    that broadcast.  Where nothing else is said, this is the runtime the
    functions are run in. *)
#[export] Instance accept_all {T : Type} : RuntimeChecks T := {|
  rt_refuses _ _ := None
|}.

(** Modelled from the spec: what the runtime does with a [sigma] that is not
    of the prior's element type.  The runtime is not in this module, and the
    spec, which asks [sigma] to have the prior's element type, leaves the
    rest to the runtime.  The runtime the module is written for raises a
    [TypeError] when the two tensor operands of [+], [*] or [/] have
    different element types; the text below stands for the runtime's own. *)
Definition operand_dtype_msg (x_dtype y_dtype : DType) : string :=
  ("x and y must have the same dtype, got "
     ++ DType_str x_dtype ++ " != " ++ DType_str y_dtype)%string.

Definition same_dtype_checks {T : Type} {RT : Runtime T} : RuntimeChecks T := {|
  rt_refuses op args :=
    match op, args with
    | OpAdd, [x; y] | OpMul, [x; y] | OpTrueDiv, [x; y] =>
      if DType_eqb (dtype x) (dtype y) then None
      else Some (TypeError (operand_dtype_msg (dtype x) (dtype y)))
    | _, _ => None
    end
|}.


(** The outcome of running a computation from the empty graph. *)
Definition result {A : Type} (c : Py A) : PyError + A := fst (c []).

(** ** Two runtimes of scalar tensors *)

(** *** Exact real arithmetic

    A scalar tensor (shape [[]]) of real value: the arithmetic the formulas of
    the docstrings are stated in.  The element type is carried along: a cast
    sets it, an operator gives its result the element type of its tensor
    operand. *)
Record RTensor : Type := {
  r_dtype : DType;
  r_val : R
}.

#[export] Instance RealRuntime : Runtime RTensor := {|
  dtype := r_dtype;
  rt_cast x d := {| r_dtype := d; r_val := r_val x |};
  rt_square x := {| r_dtype := r_dtype x; r_val := (r_val x * r_val x)%R |};
  rt_sqrt x := {| r_dtype := r_dtype x; r_val := R_sqrt.sqrt (r_val x) |};
  rt_add x y := {| r_dtype := r_dtype x; r_val := (r_val x + r_val y)%R |};
  rt_mul x y := {| r_dtype := r_dtype x; r_val := (r_val x * r_val y)%R |};
  rt_truediv x y := {| r_dtype := r_dtype x; r_val := (r_val x / r_val y)%R |};
  rt_rtruediv x c := {| r_dtype := r_dtype x; r_val := (Q2R c / r_val x)%R |}
|}.

(** A real scalar of a floating type, and a count. *)
Definition rconst (d : DType) (x : R) : RTensor := {| r_dtype := d; r_val := x |}.

Definition rcount (k : Z) : RTensor := {| r_dtype := int32; r_val := IZR k |}.

Definition RGaussian (d : DType) (m sd : R) : Gaussian RTensor :=
  {| mu := rconst d m; sigma := rconst d sd |}.

(** The variance of a Gaussian is the square of its standard deviation. *)
Definition variance (g : Gaussian RTensor) : R :=
  (r_val (sigma g) * r_val (sigma g))%R.

(** *** Binary64 arithmetic

    A scalar tensor whose element is an IEEE 754 binary64 number, the
    arithmetic of a [float64] tensor: division by zero gives an infinity,
    [0/0] and [inf * 0] give NaN, nothing raises.  A count is held by the
    binary64 number of the same value; the element type is carried for the
    checks of the code, as in the real runtime.  Only the arithmetic of
    [float64] is meant: a [float32] tensor appears below for its element type,
    never for its values, and no result below is a subnormal number. *)
Record FTensor : Type := {
  f_dtype : DType;
  f_val : float
}.

Definition Z2F (z : Z) : float :=
  match z with
  | Z0 => 0%float
  | Zpos _ => PrimFloat.of_uint63 (Uint63.of_Z z)
  | Zneg p => PrimFloat.opp (PrimFloat.of_uint63 (Uint63.of_Z (Zpos p)))
  end.

Definition Q2F (q : Q) : float :=
  PrimFloat.div (Z2F (Qnum q)) (Z2F (Zpos (Qden q))).

#[export] Instance Binary64Runtime : Runtime FTensor := {|
  dtype := f_dtype;
  rt_cast x d := {| f_dtype := d; f_val := f_val x |};
  rt_square x := {| f_dtype := f_dtype x; f_val := PrimFloat.mul (f_val x) (f_val x) |};
  rt_sqrt x := {| f_dtype := f_dtype x; f_val := PrimFloat.sqrt (f_val x) |};
  rt_add x y := {| f_dtype := f_dtype x; f_val := PrimFloat.add (f_val x) (f_val y) |};
  rt_mul x y := {| f_dtype := f_dtype x; f_val := PrimFloat.mul (f_val x) (f_val y) |};
  rt_truediv x y :=
    {| f_dtype := f_dtype x; f_val := PrimFloat.div (f_val x) (f_val y) |};
  rt_rtruediv x c :=
    {| f_dtype := f_dtype x; f_val := PrimFloat.div (Q2F c) (f_val x) |}
|}.

Definition fconst (x : float) : FTensor := {| f_dtype := float64; f_val := x |}.

Definition fcount (k : Z) : FTensor := {| f_dtype := int32; f_val := Z2F k |}.

Definition FGaussian (m sd : float) : Gaussian FTensor :=
  {| mu := fconst m; sigma := fconst sd |}.

(** ** The example of the spec, and inputs the contract does not cover *)

(** [prior.mean = 0], [prior.standard_deviation = 1], [sigma = 1], [s = 10],
    [n = 10], in exact arithmetic and in binary64. *)
Definition example_prior : Gaussian RTensor := RGaussian float32 0 1.
Definition example_sigma : RTensor := rconst float32 1.
Definition example_s : RTensor := rconst float32 10.
Definition example_n : RTensor := rcount 10.

Definition fexample_prior : Gaussian FTensor := FGaussian 0 1.
Definition fexample_sigma : FTensor := fconst 1.
Definition fexample_s : FTensor := fconst 10.
Definition fexample_n : FTensor := fcount 10.

(** The same prior and sum with no observation counted. *)
Definition no_observation : RTensor := rcount 0.

(** A sum of observations of another floating type than the prior's. *)
Definition s_float32 : FTensor := {| f_dtype := float32; f_val := 10 |}.

(** A plain pair of numbers where a Gaussian is expected. *)
Definition plain_pair : PyObject FTensor := PyTuple [0; 1].




(** * Properties *)

(** ** Element types and messages *)

Lemma DType_eqb_eq (a b : DType) : DType_eqb a b = true <-> a = b.
Proof. destruct a, b; simpl; split; intro H; try reflexivity; discriminate H. Qed.

Lemma DType_eqb_neq (a b : DType) : DType_eqb a b = false <-> a <> b.
Proof.
  destruct a, b; simpl; split; intro H;
    try reflexivity; try discriminate H; try (intro E; discriminate E);
    exfalso; apply H; reflexivity.
Qed.

(** The printed form of an element type tells which one it is. *)
Lemma DType_str_inj (a b : DType) : DType_str a = DType_str b -> a = b.
Proof. destruct a, b; simpl; intro H; try reflexivity; discriminate H. Qed.

(** The mismatch message tells both element types. *)
Lemma dtype_mismatch_msg_inj (a b a' b' : DType) :
  dtype_mismatch_msg a b = dtype_mismatch_msg a' b' -> a = a' /\ b = b'.
Proof.
  destruct a, a'; destruct b, b'; intro H;
    try (split; reflexivity); vm_compute in H; discriminate H.
Qed.

(** The two messages are never the same text. *)
Lemma prior_type_msg_not_mismatch (a b : DType) :
  prior_type_msg <> dtype_mismatch_msg a b.
Proof. intro H. discriminate H. Qed.

Lemma raised_eq {A : Type} (e e' : PyError) :
  @inl PyError A e = inl e' -> e = e'.
Proof. intro H. injection H as H. exact H. Qed.

Lemma ElementTypeMismatch_inj (a b a' b' : DType) :
  ElementTypeMismatch a b = ElementTypeMismatch a' b' -> a = a' /\ b = b'.
Proof.
  intro H. apply (f_equal PyError_msg) in H.
  apply dtype_mismatch_msg_inj. exact H.
Qed.

Lemma InvalidPriorType_not_mismatch (a b : DType) :
  InvalidPriorType <> ElementTypeMismatch a b.
Proof.
  intro H. apply (f_equal PyError_msg) in H.
  exact (prior_type_msg_not_mismatch a b H).
Qed.

(** ** What each path of the code returns, for every runtime *)

Section Paths.
Context {T : Type} {RT : Runtime T}.

Lemma as_Gaussian_None (prior : PyObject T) :
  isinstance_Gaussian prior = false <-> as_Gaussian prior = None.
Proof.
  unfold isinstance_Gaussian.
  destruct (as_Gaussian prior); split; intro H; try reflexivity; discriminate H.
Qed.

Lemma as_Gaussian_Some (prior : PyObject T) (g : Gaussian T) :
  as_Gaussian prior = Some g <-> prior = PyGaussian g.
Proof.
  destruct prior; simpl; split; intro H;
    try discriminate H; inversion H; reflexivity.
Qed.

(** First check fails: the first [raise], the graph untouched, whatever the
    runtime refuses. *)
Lemma posterior_not_Gaussian {RC : RuntimeChecks T}
    (prior : PyObject T) (sigma s n : T) (G : Graph) :
  as_Gaussian prior = None ->
  known_sigma_posterior prior sigma s n G = (inl (TypeError prior_type_msg), G).
Proof. intro H. unfold known_sigma_posterior. rewrite H. reflexivity. Qed.

Lemma predictive_not_Gaussian {RC : RuntimeChecks T}
    (prior : PyObject T) (sigma s n : T) (G : Graph) :
  as_Gaussian prior = None ->
  known_sigma_predictive prior sigma s n G = (inl (TypeError prior_type_msg), G).
Proof. intro H. unfold known_sigma_predictive. rewrite H. reflexivity. Qed.

(** Second check fails: the second [raise], the graph untouched, whatever
    the runtime refuses. *)
Lemma posterior_dtype_mismatch {RC : RuntimeChecks T}
    (g : Gaussian T) (sigma s n : T) (G : Graph) :
  DType_eqb (dtype s) (Gaussian_dtype g) = false ->
  known_sigma_posterior (PyGaussian g) sigma s n G
  = (inl (TypeError (dtype_mismatch_msg (dtype s) (Gaussian_dtype g))), G).
Proof. intro H. unfold known_sigma_posterior. simpl. rewrite H. reflexivity. Qed.

Lemma predictive_dtype_mismatch {RC : RuntimeChecks T}
    (g : Gaussian T) (sigma s n : T) (G : Graph) :
  DType_eqb (dtype s) (Gaussian_dtype g) = false ->
  known_sigma_predictive (PyGaussian g) sigma s n G
  = (inl (TypeError (dtype_mismatch_msg (dtype s) (Gaussian_dtype g))), G).
Proof. intro H. unfold known_sigma_predictive. simpl. rewrite H. reflexivity. Qed.

(** Both checks pass and the runtime accepts every operand: the twelve
    operations of the posterior run in order and the result is the Gaussian
    of the formulas. *)
Lemma posterior_computes (g : Gaussian T) (sigma s n : T) (G : Graph) :
  DType_eqb (dtype s) (Gaussian_dtype g) = true ->
  known_sigma_posterior (PyGaussian g) sigma s n G
  = (inr (PosteriorMean g sigma s n), G ++ posterior_ops).
Proof.
  intro H. unfold known_sigma_posterior. simpl. rewrite H. simpl.
  unfold bind, ret, math_ops.cast, math_ops.square, math_ops.sqrt,
    Tensor.add, Tensor.mul, Tensor.truediv, Tensor.rtruediv, emit. simpl.
  unfold posterior_ops. repeat rewrite <- app_assoc. reflexivity.
Qed.

Lemma predictive_computes (g : Gaussian T) (sigma s n : T) (G : Graph) :
  DType_eqb (dtype s) (Gaussian_dtype g) = true ->
  known_sigma_predictive (PyGaussian g) sigma s n G
  = (inr (PosteriorPredictive g sigma s n), G ++ predictive_ops).
Proof.
  intro H. unfold known_sigma_predictive. simpl. rewrite H. simpl.
  unfold bind, ret, math_ops.cast, math_ops.square, math_ops.sqrt,
    Tensor.add, Tensor.mul, Tensor.truediv, Tensor.rtruediv, emit. simpl.
  unfold predictive_ops. repeat rewrite <- app_assoc. reflexivity.
Qed.

End Paths.

(** ** What each function does when the runtime may refuse operands *)

Section Refusals.
Context {T : Type} {RT : Runtime T} {RC : RuntimeChecks T}.






End Refusals.

(** ** The formulas and the failures, for every runtime *)

(** The theorems on the two checks take any [RuntimeChecks]; the others are
    about the functions run in [accept_all], the runtime that takes the
    operands it is given, but for the one on what the runtime may raise, which
    takes any [RuntimeChecks] again. *)
Section Claims.
Context {T : Type} {RT : Runtime T}.

(** C1.  When [prior] is a Gaussian and [s] has its element type,
    [known_sigma_posterior] returns the Gaussian the spec calls
    PosteriorMean: standard deviation [sqrt(sigmap_sq)] and mean
    [(prior.mean/sigma0_sq + s/sigma_sq) * sigmap_sq], where
    [sigma0_sq] is the square of the prior's standard deviation, [sigma_sq]
    the square of [sigma], and [sigmap_sq = 1/(1/sigma0_sq + n/sigma_sq)]
    with [n] cast to the prior's element type; every operation is the
    runtime's elementwise one.  Nothing is asked of [sigma] or [n]. *)
Theorem known_sigma_posterior_formula
    (g : Gaussian T) (sigma s n : T) (G : Graph) :
  dtype s = Gaussian_dtype g ->
  exists post : Gaussian T,
    known_sigma_posterior (PyGaussian g) sigma s n G
      = (inr post, G ++ posterior_ops)
    /\ post = PosteriorMean g sigma s n
    /\ Gaussian_sigma post = rt_sqrt (sigmap_sq g sigma n)
    /\ Gaussian_mu post
       = rt_mul (rt_add (rt_truediv (Gaussian_mu g) (sigma0_sq g))
                        (rt_truediv s (sigma_sq sigma)))
                (sigmap_sq g sigma n)
    /\ sigmap_sq g sigma n
       = rt_rtruediv
           (rt_add (rt_rtruediv (sigma0_sq g) 1)
                   (rt_truediv (rt_cast n (Gaussian_dtype g)) (sigma_sq sigma)))
           1
    /\ sigma0_sq g = rt_square (Gaussian_sigma g)
    /\ sigma_sq sigma = rt_square sigma.
Proof.
  intro Hs. apply DType_eqb_eq in Hs.
  exists (PosteriorMean g sigma s n).
  rewrite (posterior_computes g sigma s n G Hs).
  repeat split.
Qed.

(** C2.  On the same inputs [known_sigma_predictive] returns the Gaussian
    the spec calls PosteriorPredictive: the mean is given by the formula of
    the posterior's mean, and the standard deviation is
    [sqrt(sigmap_sq + sigma_sq)], the variance of the posterior of the mean
    plus the variance of the observation noise. *)
Theorem known_sigma_predictive_formula
    (g : Gaussian T) (sigma s n : T) (G : Graph) :
  dtype s = Gaussian_dtype g ->
  exists pred : Gaussian T,
    known_sigma_predictive (PyGaussian g) sigma s n G
      = (inr pred, G ++ predictive_ops)
    /\ pred = PosteriorPredictive g sigma s n
    /\ Gaussian_mu pred = Gaussian_mu (PosteriorMean g sigma s n)
    /\ Gaussian_mu pred
       = rt_mul (rt_add (rt_truediv (Gaussian_mu g) (sigma0_sq g))
                        (rt_truediv s (sigma_sq sigma)))
                (sigmap_sq g sigma n)
    /\ Gaussian_sigma pred
       = rt_sqrt (rt_add (sigmap_sq g sigma n) (sigma_sq sigma)).
Proof.
  intro Hs. apply DType_eqb_eq in Hs.
  exists (PosteriorPredictive g sigma s n).
  rewrite (predictive_computes g sigma s n G Hs).
  repeat split.
Qed.

(** C4.  On every input that passes the two checks, both functions return,
    and the two results have the same mean. *)
Theorem posterior_predictive_same_mean
    (g : Gaussian T) (sigma s n : T) (G : Graph) :
  dtype s = Gaussian_dtype g ->
  exists post pred : Gaussian T,
    fst (known_sigma_posterior (PyGaussian g) sigma s n G) = inr post
    /\ fst (known_sigma_predictive (PyGaussian g) sigma s n G) = inr pred
    /\ Gaussian_mu post = Gaussian_mu pred.
Proof.
  intro Hs. apply DType_eqb_eq in Hs.
  exists (PosteriorMean g sigma s n), (PosteriorPredictive g sigma s n).
  rewrite (posterior_computes g sigma s n G Hs).
  rewrite (predictive_computes g sigma s n G Hs).
  repeat split.
Qed.

(** C7.  When [prior] is not a Gaussian, both functions raise the
    [TypeError] of the first check, and the graph is as it was: no numeric
    operation has run. *)
Theorem not_Gaussian_raises_first {RC : RuntimeChecks T}
    (prior : PyObject T) (sigma s n : T) (G : Graph) :
  isinstance_Gaussian prior = false ->
  known_sigma_posterior prior sigma s n G = (inl InvalidPriorType, G)
  /\ known_sigma_predictive prior sigma s n G = (inl InvalidPriorType, G).
Proof.
  intro H. apply as_Gaussian_None in H. split.
  - apply posterior_not_Gaussian; exact H.
  - apply predictive_not_Gaussian; exact H.
Qed.

(** C8.  When [prior] is a Gaussian and the element type of [s] is not the
    prior's, both functions raise the [TypeError] of the second check; its
    message is built from both element types and determines them; the graph
    is as it was, so nothing has been computed. *)
Theorem dtype_mismatch_raises {RC : RuntimeChecks T}
    (g : Gaussian T) (sigma s n : T) (G : Graph) :
  dtype s <> Gaussian_dtype g ->
  known_sigma_posterior (PyGaussian g) sigma s n G
    = (inl (ElementTypeMismatch (dtype s) (Gaussian_dtype g)), G)
  /\ known_sigma_predictive (PyGaussian g) sigma s n G
    = (inl (ElementTypeMismatch (dtype s) (Gaussian_dtype g)), G)
  /\ ElementTypeMismatch (dtype s) (Gaussian_dtype g)
    = TypeError
        ("Observation sum s.dtype does not match prior dtype: "
           ++ DType_str (dtype s) ++ " vs. "
           ++ DType_str (Gaussian_dtype g))%string
  /\ (forall a b : DType,
        ElementTypeMismatch a b
          = ElementTypeMismatch (dtype s) (Gaussian_dtype g) ->
        a = dtype s /\ b = Gaussian_dtype g).
Proof.
  intro H. apply DType_eqb_neq in H. repeat split.
  - apply posterior_dtype_mismatch; exact H.
  - apply predictive_dtype_mismatch; exact H.
  - apply ElementTypeMismatch_inj in H0. apply H0.
  - apply ElementTypeMismatch_inj in H0. apply H0.
Qed.


(** C10.  The check of [prior] comes before the check of the element type:
    when [prior] is not a Gaussian the exception is the one of the first
    check, whatever the element type of [s]; and when the exception is the
    one of the second check, [prior] is a Gaussian whose element type
    differs from that of [s]. *)
Theorem prior_check_precedes_dtype_check
    (prior : PyObject T) (sigma s n : T) (G : Graph) :
  (isinstance_Gaussian prior = false ->
     fst (known_sigma_posterior prior sigma s n G) = inl InvalidPriorType
     /\ fst (known_sigma_predictive prior sigma s n G) = inl InvalidPriorType)
  /\ (forall a b : DType,
        fst (known_sigma_posterior prior sigma s n G)
          = inl (ElementTypeMismatch a b)
        \/ fst (known_sigma_predictive prior sigma s n G)
          = inl (ElementTypeMismatch a b) ->
        exists g : Gaussian T,
          prior = PyGaussian g /\ a = dtype s /\ b = Gaussian_dtype g
          /\ dtype s <> Gaussian_dtype g).
Proof.
  split.
  - intro H. apply as_Gaussian_None in H.
    rewrite (posterior_not_Gaussian prior sigma s n G H).
    rewrite (predictive_not_Gaussian prior sigma s n G H).
    split; reflexivity.
  - intros a b He.
    destruct (as_Gaussian prior) as [g|] eqn:Hp.
    + apply as_Gaussian_Some in Hp. subst prior. exists g.
      destruct (DType_eqb (dtype s) (Gaussian_dtype g)) eqn:Hd.
      * rewrite (posterior_computes g sigma s n G Hd) in He.
        rewrite (predictive_computes g sigma s n G Hd) in He.
        destruct He as [He | He]; discriminate He.
      * rewrite (posterior_dtype_mismatch g sigma s n G Hd) in He.
        rewrite (predictive_dtype_mismatch g sigma s n G Hd) in He.
        assert (Hm : ElementTypeMismatch (dtype s) (Gaussian_dtype g)
                     = ElementTypeMismatch a b).
        { destruct He as [He | He]; cbn [fst] in He;
            apply raised_eq in He; exact He. }
        apply ElementTypeMismatch_inj in Hm. destruct Hm as [Ha Hb].
        repeat split; try (symmetry; assumption).
        apply DType_eqb_neq. exact Hd.
    + rewrite (posterior_not_Gaussian prior sigma s n G Hp) in He.
      rewrite (predictive_not_Gaussian prior sigma s n G Hp) in He.
      exfalso. apply (InvalidPriorType_not_mismatch a b).
      destruct He as [He | He]; cbn [fst] in He;
        apply raised_eq in He; exact He.
Qed.

End Claims.


(** ** Exact arithmetic: the example, the variances, no observation *)

(** Real scalars of one element type are operands every runtime accepts: the
    functions are run in [accept_all]. *)

Lemma Q2R_one : Q2R 1 = 1%R.
Proof. unfold Q2R. simpl. field. Qed.

(** With a positive prior deviation, a positive [sigma] and a count that is
    not negative, the posterior variance of the mean is positive. *)
Lemma sigmap_sq_pos (a b k : R) :
  (0 < a)%R -> (0 < b)%R -> (0 <= k)%R ->
  (0 < Q2R 1 / (Q2R 1 / (a * a) + k / (b * b)))%R.
Proof.
  intros Ha Hb Hk. rewrite Q2R_one.
  assert (Haa : (0 < a * a)%R) by (apply Rmult_lt_0_compat; assumption).
  assert (Hbb : (0 < b * b)%R) by (apply Rmult_lt_0_compat; assumption).
  assert (H1 : (0 < 1 / (a * a))%R) by (apply Rdiv_lt_0_compat; lra).
  assert (H2 : (0 <= k / (b * b))%R).
  { unfold Rdiv. apply Rmult_le_pos; [exact Hk|].
    left. apply Rinv_0_lt_compat. exact Hbb. }
  apply Rdiv_lt_0_compat; lra.
Qed.

(** A real tensor is its element type and its value. *)
Lemma RTensor_eq (x : RTensor) (d : DType) (v : R) :
  r_dtype x = d -> r_val x = v -> x = rconst d v.
Proof. destruct x as [d' v']. simpl. intros Hd Hv. subst. reflexivity. Qed.

Lemma r_val_sqrt (x : RTensor) : r_val (rt_sqrt x) = R_sqrt.sqrt (r_val x).
Proof. reflexivity. Qed.

Lemma r_val_add (x y : RTensor) : r_val (rt_add x y) = (r_val x + r_val y)%R.
Proof. reflexivity. Qed.

(** The posterior variance and the mean on the example of the spec. *)
Lemma example_sigmap_sq :
  r_val (sigmap_sq example_prior example_sigma example_n) = (1 / 11)%R.
Proof.
  unfold sigmap_sq, sigma0_sq, sigma_sq. simpl. rewrite Q2R_one. field.
Qed.

Lemma example_mean :
  r_val (posterior_mean_spec example_prior example_sigma example_s example_n)
  = (10 / 11)%R.
Proof.
  unfold posterior_mean_spec, sigmap_sq, sigma0_sq, sigma_sq. simpl.
  rewrite Q2R_one. field.
Qed.

(** What the posterior is when the count is zero: the prior's standard
    deviation, and the prior's mean moved by [s * sigma0^2 / sigma^2]. *)
Lemma posterior_no_observation (g : Gaussian RTensor) (sg s n : RTensor) :
  (0 < r_val (Gaussian_sigma g))%R -> (0 < r_val sg)%R -> r_val n = 0%R ->
  r_val (Gaussian_sigma (PosteriorMean g sg s n)) = r_val (Gaussian_sigma g)
  /\ r_val (Gaussian_mu (PosteriorMean g sg s n))
     = (r_val (Gaussian_mu g)
        + r_val s * (r_val (Gaussian_sigma g) * r_val (Gaussian_sigma g))
          / (r_val sg * r_val sg))%R.
Proof.
  intros Ha Hb Hn.
  unfold PosteriorMean, posterior_mean_spec, sigmap_sq, sigma0_sq, sigma_sq,
    Gaussian_sigma, Gaussian_mu in *. simpl. rewrite Q2R_one, Hn. split.
  - replace (1 / (1 / (r_val (sigma g) * r_val (sigma g))
                  + 0 / (r_val sg * r_val sg)))%R
      with (r_val (sigma g) * r_val (sigma g))%R by (field; lra).
    apply sqrt_square. lra.
  - field. lra.
Qed.

(** C3.  On [prior.mean = 0], [prior.standard_deviation = 1], [sigma = 1],
    [s = 10], [n = 10], in exact arithmetic, [known_sigma_posterior] returns
    mean [10/11] and standard deviation [sqrt(1/11)], and
    [known_sigma_predictive] returns mean [10/11] and standard deviation
    [sqrt(1/11 + 1)]. *)
Theorem example_posterior_and_predictive :
  result (known_sigma_posterior (PyGaussian example_prior)
            example_sigma example_s example_n)
    = inr (RGaussian float32 (10 / 11) (R_sqrt.sqrt (1 / 11)))
  /\ result (known_sigma_predictive (PyGaussian example_prior)
               example_sigma example_s example_n)
    = inr (RGaussian float32 (10 / 11) (R_sqrt.sqrt (1 / 11 + 1))).
Proof.
  unfold result.
  rewrite posterior_computes by reflexivity.
  rewrite predictive_computes by reflexivity.
  cbn [fst]. unfold PosteriorMean, PosteriorPredictive, RGaussian.
  split; apply f_equal; apply f_equal2; apply RTensor_eq; try reflexivity.
  - exact example_mean.
  - rewrite r_val_sqrt, example_sigmap_sq. reflexivity.
  - exact example_mean.
  - rewrite r_val_sqrt, r_val_add, example_sigmap_sq.
    apply f_equal. simpl. lra.
Qed.

(** C3, as the spec words it, fails: both functions return on the example and
    neither mean is [5]. *)
Lemma example_mean_is_not_five :
  exists post pred : Gaussian RTensor,
    result (known_sigma_posterior (PyGaussian example_prior)
              example_sigma example_s example_n) = inr post
    /\ result (known_sigma_predictive (PyGaussian example_prior)
                 example_sigma example_s example_n) = inr pred
    /\ r_val (mu post) <> 5%R
    /\ r_val (mu pred) <> 5%R.
Proof.
  exists (PosteriorMean example_prior example_sigma example_s example_n),
         (PosteriorPredictive example_prior example_sigma example_s example_n).
  unfold result.
  rewrite posterior_computes by reflexivity.
  rewrite predictive_computes by reflexivity.
  split; [reflexivity|]. split; [reflexivity|].
  unfold PosteriorMean, PosteriorPredictive, mu.
  rewrite example_mean. split; lra.
Qed.


(** C6, as amended.  With a prior of positive standard deviation, [sigma > 0],
    count [n = 0] and sum [s = 0] of the prior's element type, in exact
    arithmetic [known_sigma_posterior] returns the prior: the same mean and
    the same standard deviation. *)
Theorem no_observation_returns_prior
    (g : Gaussian RTensor) (sigma s n : RTensor) (G : Graph) :
  dtype s = Gaussian_dtype g ->
  (0 < r_val (Gaussian_sigma g))%R ->
  (0 < r_val sigma)%R ->
  r_val n = 0%R ->
  r_val s = 0%R ->
  exists post : Gaussian RTensor,
    fst (known_sigma_posterior (PyGaussian g) sigma s n G) = inr post
    /\ r_val (Gaussian_mu post) = r_val (Gaussian_mu g)
    /\ r_val (Gaussian_sigma post) = r_val (Gaussian_sigma g)
    /\ post = g.
Proof.
  intros Hs Ha Hb Hn Hz. apply DType_eqb_eq in Hs.
  exists (PosteriorMean g sigma s n).
  rewrite (posterior_computes g sigma s n G Hs).
  destruct (posterior_no_observation g sigma s n Ha Hb Hn) as [Hsd Hmu].
  assert (Hmu' : r_val (Gaussian_mu (PosteriorMean g sigma s n))
                 = r_val (Gaussian_mu g)).
  { rewrite Hmu, Hz. unfold Rdiv. rewrite Rmult_0_l, Rmult_0_l. lra. }
  split; [reflexivity|]. split; [exact Hmu'|]. split; [exact Hsd|].
  destruct g as [[dm m] [dsd sd]].
  unfold Gaussian_mu, Gaussian_sigma in *. simpl in *.
  unfold PosteriorMean, posterior_mean_spec, sigmap_sq, sigma0_sq, sigma_sq,
    Gaussian_mu, Gaussian_sigma in *. simpl in *.
  rewrite Hmu', Hsd. reflexivity.
Qed.

(** C6, as the spec words it, fails: with no observation counted but a sum of
    [10], the posterior returns mean [10], away from the prior's mean [0]. *)
Lemma no_observation_sum_moves_mean :
  exists post : Gaussian RTensor,
    result (known_sigma_posterior (PyGaussian example_prior)
              example_sigma example_s no_observation) = inr post
    /\ r_val (mu post) = 10%R
    /\ r_val (mu post) <> r_val (mu example_prior).
Proof.
  exists (PosteriorMean example_prior example_sigma example_s no_observation).
  unfold result. rewrite posterior_computes by reflexivity.
  split; [reflexivity|].
  assert (H : r_val (mu (PosteriorMean example_prior example_sigma example_s
                           no_observation)) = 10%R).
  { unfold PosteriorMean, posterior_mean_spec, sigmap_sq, sigma0_sq, sigma_sq.
    simpl. rewrite Q2R_one. field. }
  split; [exact H|]. rewrite H. simpl. lra.
Qed.

(** ** Binary64 arithmetic: the code run on scalars *)

(** The example of the spec in binary64: mean [0.909...] for both functions,
    standard deviations [0.3015...] and [1.0444...]. *)
Lemma binary64_example :
  known_sigma_posterior (PyGaussian fexample_prior)
    fexample_sigma fexample_s fexample_n []
  = (inr (FGaussian 0x1.d1745d1745d18p-1 0x1.34bf63d156826p-2), posterior_ops)
  /\ known_sigma_predictive (PyGaussian fexample_prior)
       fexample_sigma fexample_s fexample_n []
     = (inr (FGaussian 0x1.d1745d1745d18p-1 0x1.0b621e9bc3addp+0),
        predictive_ops).
Proof. split; vm_compute; reflexivity. Qed.

(** [sigma = 0]: nothing raises; the division by the zero variance gives an
    infinity, the product of the infinity by the zero posterior variance gives
    NaN as the mean. *)
Lemma binary64_zero_sigma :
  exists post : Gaussian FTensor,
    result (known_sigma_posterior (PyGaussian fexample_prior)
              (fconst 0) fexample_s fexample_n) = inr post
    /\ PrimFloat.is_nan (f_val (mu post)) = true
    /\ f_val (sigma post) = 0%float.
Proof.
  eexists. split; [vm_compute; reflexivity|].
  split; vm_compute; reflexivity.
Qed.

(** [n = -1] against a unit prior: the precisions cancel, the posterior
    variance [1/0] is an infinity, and so are the mean and the deviation. *)
Lemma binary64_negative_count :
  result (known_sigma_posterior (PyGaussian fexample_prior)
            fexample_sigma fexample_s (fcount (-1)))
  = inr (FGaussian infinity infinity).
Proof. vm_compute. reflexivity. Qed.

(** No observation and a zero sum in binary64, prior deviation [7]: the mean
    is the prior's, the deviation is one unit in the last place above [7].
    The exact return of the prior is a fact of exact arithmetic. *)
Lemma binary64_no_observation_rounds :
  result (known_sigma_posterior (PyGaussian (FGaussian 2 7))
            fexample_sigma (fconst 0) (fcount 0))
  = inr (FGaussian 2 0x1.c000000000001p+2).
Proof. vm_compute. reflexivity. Qed.

(** A positive [sigma] so small that its square underflows to zero, with no
    observation: [0/0] is NaN and both deviations come out as NaN, which
    compare with nothing.  The order of the variances is a fact of exact
    arithmetic. *)
Lemma binary64_underflow :
  exists post pred : Gaussian FTensor,
    result (known_sigma_posterior (PyGaussian fexample_prior)
              (fconst 0x1p-600) (fconst 0) (fcount 0)) = inr post
    /\ result (known_sigma_predictive (PyGaussian fexample_prior)
                 (fconst 0x1p-600) (fconst 0) (fcount 0)) = inr pred
    /\ PrimFloat.ltb 0 0x1p-600 = true
    /\ PrimFloat.is_nan (f_val (sigma post)) = true
    /\ PrimFloat.is_nan (f_val (sigma pred)) = true.
Proof.
  do 2 eexists. split; [vm_compute; reflexivity|].
  split; [vm_compute; reflexivity|].
  repeat split; vm_compute; reflexivity.
Qed.



(** In the same runtime a [sigma] of the prior's element type is accepted
    whatever its value: with [sigma = 0] and [n = -2] both functions return,
    the mean being NaN. *)
Lemma checked_runtime_takes_degenerate_values :
  exists post pred : Gaussian FTensor,
    known_sigma_posterior (RC := same_dtype_checks)
      (PyGaussian fexample_prior) (fconst 0) fexample_s (fcount (-2)) []
    = (inr post, posterior_ops)
    /\ known_sigma_predictive (RC := same_dtype_checks)
         (PyGaussian fexample_prior) (fconst 0) fexample_s (fcount (-2)) []
       = (inr pred, predictive_ops)
    /\ PrimFloat.is_nan (f_val (mu post)) = true
    /\ PrimFloat.is_nan (f_val (mu pred)) = true.
Proof.
  do 2 eexists. split; [vm_compute; reflexivity|].
  split; [vm_compute; reflexivity|].
  split; vm_compute; reflexivity.
Qed.

(** ** The theorems at concrete inputs *)

Lemma known_sigma_posterior_formula_witness :
  dtype fexample_s = Gaussian_dtype fexample_prior
  /\ exists post : Gaussian FTensor,
       known_sigma_posterior (PyGaussian fexample_prior)
         fexample_sigma fexample_s fexample_n [] = (inr post, posterior_ops)
       /\ post = PosteriorMean fexample_prior fexample_sigma fexample_s fexample_n.
Proof.
  split; [reflexivity|].
  destruct (known_sigma_posterior_formula (RT := Binary64Runtime) fexample_prior
              fexample_sigma fexample_s fexample_n [] eq_refl)
    as [post [Hrun [Hpost _]]].
  exists post. split; [exact Hrun | exact Hpost].
Defined.

Lemma known_sigma_predictive_formula_witness :
  dtype fexample_s = Gaussian_dtype fexample_prior
  /\ exists pred : Gaussian FTensor,
       known_sigma_predictive (PyGaussian fexample_prior)
         fexample_sigma fexample_s fexample_n [] = (inr pred, predictive_ops)
       /\ Gaussian_sigma pred
          = rt_sqrt (rt_add (sigmap_sq fexample_prior fexample_sigma fexample_n)
                            (sigma_sq fexample_sigma)).
Proof.
  split; [reflexivity|].
  destruct (known_sigma_predictive_formula (RT := Binary64Runtime) fexample_prior
              fexample_sigma fexample_s fexample_n [] eq_refl)
    as [pred [Hrun [_ [_ [_ Hsd]]]]].
  exists pred. split; [exact Hrun | exact Hsd].
Defined.

Lemma posterior_predictive_same_mean_witness :
  dtype fexample_s = Gaussian_dtype fexample_prior
  /\ exists post pred : Gaussian FTensor,
       fst (known_sigma_posterior (PyGaussian fexample_prior)
              fexample_sigma fexample_s fexample_n []) = inr post
       /\ fst (known_sigma_predictive (PyGaussian fexample_prior)
                 fexample_sigma fexample_s fexample_n []) = inr pred
       /\ Gaussian_mu post = Gaussian_mu pred.
Proof.
  split; [reflexivity|].
  exact (posterior_predictive_same_mean (RT := Binary64Runtime) fexample_prior
           fexample_sigma fexample_s fexample_n [] eq_refl).
Defined.


Lemma no_observation_returns_prior_witness :
  (dtype (rconst float32 0) = Gaussian_dtype example_prior
   /\ (0 < r_val (Gaussian_sigma example_prior))%R
   /\ (0 < r_val example_sigma)%R
   /\ r_val no_observation = 0%R
   /\ r_val (rconst float32 0) = 0%R)
  /\ exists post : Gaussian RTensor,
       fst (known_sigma_posterior (PyGaussian example_prior)
              example_sigma (rconst float32 0) no_observation []) = inr post
       /\ r_val (Gaussian_mu post) = r_val (Gaussian_mu example_prior)
       /\ r_val (Gaussian_sigma post) = r_val (Gaussian_sigma example_prior)
       /\ post = example_prior.
Proof.
  assert (Ha : (0 < r_val (Gaussian_sigma example_prior))%R) by (simpl; lra).
  assert (Hb : (0 < r_val example_sigma)%R) by (simpl; lra).
  split; [repeat split; try assumption; reflexivity|].
  exact (no_observation_returns_prior example_prior
           example_sigma (rconst float32 0) no_observation []
           eq_refl Ha Hb eq_refl eq_refl).
Defined.

Lemma not_Gaussian_raises_first_witness :
  isinstance_Gaussian plain_pair = false
  /\ known_sigma_posterior plain_pair fexample_sigma fexample_s fexample_n []
     = (inl InvalidPriorType, [])
  /\ known_sigma_predictive plain_pair fexample_sigma fexample_s fexample_n []
     = (inl InvalidPriorType, []).
Proof.
  split; [reflexivity|].
  exact (not_Gaussian_raises_first (RT := Binary64Runtime) plain_pair
           fexample_sigma fexample_s fexample_n [] eq_refl).
Defined.

Lemma dtype_mismatch_raises_witness :
  dtype s_float32 <> Gaussian_dtype fexample_prior
  /\ known_sigma_posterior (PyGaussian fexample_prior)
       fexample_sigma s_float32 fexample_n []
     = (inl (ElementTypeMismatch float32 float64), [])
  /\ known_sigma_predictive (PyGaussian fexample_prior)
       fexample_sigma s_float32 fexample_n []
     = (inl (ElementTypeMismatch float32 float64), [])
  /\ ElementTypeMismatch float32 float64
     = TypeError
         "Observation sum s.dtype does not match prior dtype: float32 vs. float64".
Proof.
  assert (Hd : dtype s_float32 <> Gaussian_dtype fexample_prior)
    by (intro E; discriminate E).
  split; [exact Hd|].
  destruct (dtype_mismatch_raises (RT := Binary64Runtime) fexample_prior
              fexample_sigma s_float32 fexample_n [] Hd)
    as [Hpost [Hpred [Hmsg _]]].
  split; [exact Hpost|]. split; [exact Hpred | exact Hmsg].
Defined.


Lemma prior_check_precedes_dtype_check_witness :
  isinstance_Gaussian plain_pair = false
  /\ dtype s_float32 <> float64
  /\ fst (known_sigma_posterior plain_pair fexample_sigma s_float32 fexample_n [])
     = inl InvalidPriorType
  /\ fst (known_sigma_predictive plain_pair fexample_sigma s_float32 fexample_n [])
     = inl InvalidPriorType.
Proof.
  split; [reflexivity|].
  split; [intro E; discriminate E|].
  exact (proj1 (prior_check_precedes_dtype_check (RT := Binary64Runtime) plain_pair
                  fexample_sigma s_float32 fexample_n []) eq_refl).
Defined.

(** * Further properties of the two functions *)

(** ** For every runtime *)

(** The functions are run in [accept_all], as for the formulas. *)
Section Further.
Context {T : Type} {RT : Runtime T}.

(** X3.  The standard deviation each function returns depends on the prior's
    standard deviation and element type, on [sigma] and on [n] only: changing
    the prior's mean or the sum [s] of the observations leaves it as it is. *)
Theorem deviation_ignores_mean_and_sum
    (g g' : Gaussian T) (sigma s s' n : T) (G G' : Graph) :
  Gaussian_sigma g = Gaussian_sigma g' ->
  Gaussian_dtype g = Gaussian_dtype g' ->
  dtype s = Gaussian_dtype g ->
  dtype s' = Gaussian_dtype g' ->
  exists post post' pred pred' : Gaussian T,
    fst (known_sigma_posterior (PyGaussian g) sigma s n G) = inr post
    /\ fst (known_sigma_posterior (PyGaussian g') sigma s' n G') = inr post'
    /\ fst (known_sigma_predictive (PyGaussian g) sigma s n G) = inr pred
    /\ fst (known_sigma_predictive (PyGaussian g') sigma s' n G') = inr pred'
    /\ Gaussian_sigma post = Gaussian_sigma post'
    /\ Gaussian_sigma pred = Gaussian_sigma pred'.
Proof.
  intros Hsd Hdt Hs Hs'. apply DType_eqb_eq in Hs. apply DType_eqb_eq in Hs'.
  exists (PosteriorMean g sigma s n), (PosteriorMean g' sigma s' n),
         (PosteriorPredictive g sigma s n), (PosteriorPredictive g' sigma s' n).
  rewrite (posterior_computes g sigma s n G Hs).
  rewrite (posterior_computes g' sigma s' n G' Hs').
  rewrite (predictive_computes g sigma s n G Hs).
  rewrite (predictive_computes g' sigma s' n G' Hs').
  repeat (split; [reflexivity|]).
  unfold PosteriorMean, PosteriorPredictive, sigmap_sq, sigma0_sq,
    Gaussian_sigma in *. simpl.
  rewrite Hsd, Hdt. split; reflexivity.
Qed.

End Further.

(** ** In exact arithmetic *)

(** The two results over real scalars, written out. *)
Lemma real_posterior (dm dsd : DType) (m a : R) (sg s n : RTensor) :
  PosteriorMean (Build_Gaussian (Build_RTensor dm m) (Build_RTensor dsd a))
    sg s n
  = Build_Gaussian
      (Build_RTensor dm
         ((m / (a * a) + r_val s / (r_val sg * r_val sg))
          * (1 / (1 / (a * a) + r_val n / (r_val sg * r_val sg))))%R)
      (Build_RTensor dsd
         (R_sqrt.sqrt (1 / (1 / (a * a) + r_val n / (r_val sg * r_val sg))))).
Proof.
  unfold PosteriorMean, posterior_mean_spec, sigmap_sq, sigma0_sq, sigma_sq.
  simpl. rewrite Q2R_one. reflexivity.
Qed.

Lemma real_predictive (dm dsd : DType) (m a : R) (sg s n : RTensor) :
  PosteriorPredictive
    (Build_Gaussian (Build_RTensor dm m) (Build_RTensor dsd a)) sg s n
  = Build_Gaussian
      (Build_RTensor dm
         ((m / (a * a) + r_val s / (r_val sg * r_val sg))
          * (1 / (1 / (a * a) + r_val n / (r_val sg * r_val sg))))%R)
      (Build_RTensor dsd
         (R_sqrt.sqrt (1 / (1 / (a * a) + r_val n / (r_val sg * r_val sg))
                       + r_val sg * r_val sg))).
Proof.
  unfold PosteriorPredictive, posterior_mean_spec, sigmap_sq, sigma0_sq,
    sigma_sq. simpl. rewrite Q2R_one. reflexivity.
Qed.

(** A quotient by a positive number against a bound. *)
Lemma div_le_bound (x d y : R) :
  (0 < d)%R -> (x <= y * d)%R -> (x / d <= y)%R.
Proof.
  intros Hd H. apply Rmult_le_reg_r with d; [exact Hd|].
  unfold Rdiv. rewrite Rmult_assoc, Rinv_l by lra. lra.
Qed.

Lemma div_lt_bound (x d y : R) :
  (0 < d)%R -> (x < y * d)%R -> (x / d < y)%R.
Proof.
  intros Hd H. apply Rmult_lt_reg_r with d; [exact Hd|].
  unfold Rdiv. rewrite Rmult_assoc, Rinv_l by lra. lra.
Qed.

(** The posterior variance in closed form, and its sign. *)
Lemma posterior_variance_closed (a b k : R) :
  (0 < a)%R -> (0 < b)%R -> (0 <= k)%R ->
  (1 / (1 / (a * a) + k / (b * b)) = a * a * (b * b) / (b * b + k * (a * a))
   /\ 0 < 1 / (1 / (a * a) + k / (b * b))
   /\ 0 < b * b + k * (a * a))%R.
Proof.
  intros Ha Hb Hk.
  assert (Haa : (0 < a * a)%R) by (apply Rmult_lt_0_compat; assumption).
  assert (Hbb : (0 < b * b)%R) by (apply Rmult_lt_0_compat; assumption).
  assert (Hk' : (0 <= k * (a * a))%R) by (apply Rmult_le_pos; lra).
  assert (Hd : (0 < b * b + k * (a * a))%R) by lra.
  split; [field; repeat split; lra|]. split; [|exact Hd].
  pose proof (sigmap_sq_pos a b k Ha Hb Hk) as H.
  rewrite Q2R_one in H. exact H.
Qed.

(** X4.  Precisions add.  With a prior of positive standard deviation,
    [sigma > 0] and [n >= 0], the Gaussian [known_sigma_posterior] returns has
    a positive standard deviation, and the inverse of its variance is the
    inverse of the prior's variance plus [n] times the inverse of [sigma^2]. *)
Theorem posterior_precisions_add
    (g : Gaussian RTensor) (sigma s n : RTensor) (G : Graph) :
  dtype s = Gaussian_dtype g ->
  (0 < r_val (Gaussian_sigma g))%R ->
  (0 < r_val sigma)%R ->
  (0 <= r_val n)%R ->
  exists post : Gaussian RTensor,
    fst (known_sigma_posterior (PyGaussian g) sigma s n G) = inr post
    /\ (0 < r_val (Gaussian_sigma post))%R
    /\ (/ variance post
        = / variance g + r_val n * / (r_val sigma * r_val sigma))%R.
Proof.
  intros Hs Ha Hb Hk. apply DType_eqb_eq in Hs.
  exists (PosteriorMean g sigma s n).
  rewrite (posterior_computes g sigma s n G Hs). split; [reflexivity|].
  destruct g as [[dm m] [dsd a]]. rewrite real_posterior.
  unfold variance, Gaussian_sigma in *. simpl in *.
  destruct (posterior_variance_closed a (r_val sigma) (r_val n) Ha Hb Hk)
    as [Hv [Hpos Hd]].
  split; [apply sqrt_lt_R0; exact Hpos|].
  rewrite sqrt_sqrt by lra. field. repeat split; lra.
Qed.

(** X5.  Observations never add uncertainty.  On the same inputs the variance
    of the posterior is at most the variance of the prior; when [n > 0] it is
    smaller, and smaller than [sigma^2 / n]. *)
Theorem posterior_variance_shrinks
    (g : Gaussian RTensor) (sigma s n : RTensor) (G : Graph) :
  dtype s = Gaussian_dtype g ->
  (0 < r_val (Gaussian_sigma g))%R ->
  (0 < r_val sigma)%R ->
  (0 <= r_val n)%R ->
  exists post : Gaussian RTensor,
    fst (known_sigma_posterior (PyGaussian g) sigma s n G) = inr post
    /\ (variance post <= variance g)%R
    /\ ((0 < r_val n)%R ->
        (variance post < variance g)%R
        /\ (variance post < r_val sigma * r_val sigma / r_val n)%R).
Proof.
  intros Hs Ha Hb Hk. apply DType_eqb_eq in Hs.
  exists (PosteriorMean g sigma s n).
  rewrite (posterior_computes g sigma s n G Hs). split; [reflexivity|].
  destruct g as [[dm m] [dsd a]]. rewrite real_posterior.
  unfold variance, Gaussian_sigma in *. simpl in *.
  destruct (posterior_variance_closed a (r_val sigma) (r_val n) Ha Hb Hk)
    as [Hv [Hpos Hd]].
  rewrite sqrt_sqrt by lra. rewrite Hv.
  set (b := r_val sigma) in *. set (k := r_val n) in *.
  assert (Haa : (0 < a * a)%R) by (apply Rmult_lt_0_compat; assumption).
  assert (Hbb : (0 < b * b)%R) by (apply Rmult_lt_0_compat; assumption).
  assert (Hkaa : (0 <= k * (a * a) * (a * a))%R).
  { apply Rmult_le_pos; [apply Rmult_le_pos|]; lra. }
  split.
  - apply div_le_bound; lra.
  - intro Hk0.
    assert (Hkaa' : (0 < k * (a * a) * (a * a))%R).
    { apply Rmult_lt_0_compat; [apply Rmult_lt_0_compat|]; lra. }
    split.
    + apply div_lt_bound; lra.
    + apply div_lt_bound; [lra|].
      replace (b * b / k * (b * b + k * (a * a)))%R
        with (b * b * (b * b) / k + a * a * (b * b))%R by (field; lra).
      assert (H4 : (0 < b * b * (b * b) / k)%R).
      { apply Rdiv_lt_0_compat; [apply Rmult_lt_0_compat|]; lra. }
      lra.
Qed.

(** X6.  The predictive adds the noise of one observation, no more and no
    less: on the same inputs the variance of the predictive result is the
    variance of the posterior result plus [sigma^2]. *)
Theorem predictive_variance_is_posterior_plus_noise
    (g : Gaussian RTensor) (sigma s n : RTensor) (G : Graph) :
  dtype s = Gaussian_dtype g ->
  (0 < r_val (Gaussian_sigma g))%R ->
  (0 < r_val sigma)%R ->
  (0 <= r_val n)%R ->
  exists post pred : Gaussian RTensor,
    fst (known_sigma_posterior (PyGaussian g) sigma s n G) = inr post
    /\ fst (known_sigma_predictive (PyGaussian g) sigma s n G) = inr pred
    /\ (variance pred = variance post + r_val sigma * r_val sigma)%R.
Proof.
  intros Hs Ha Hb Hk. apply DType_eqb_eq in Hs.
  exists (PosteriorMean g sigma s n), (PosteriorPredictive g sigma s n).
  rewrite (posterior_computes g sigma s n G Hs).
  rewrite (predictive_computes g sigma s n G Hs).
  split; [reflexivity|]. split; [reflexivity|].
  destruct g as [[dm m] [dsd a]]. rewrite real_posterior, real_predictive.
  unfold variance, Gaussian_sigma in *. simpl in *.
  destruct (posterior_variance_closed a (r_val sigma) (r_val n) Ha Hb Hk)
    as [Hv [Hpos Hd]].
  assert (Hbb : (0 < r_val sigma * r_val sigma)%R)
    by (apply Rmult_lt_0_compat; assumption).
  rewrite !sqrt_sqrt by lra. reflexivity.
Qed.

(** X7.  With [n > 0] the posterior mean is a weighted average of the prior's
    mean and of the mean [s / n] of the observations; the weight of the prior,
    [sigma^2 / (sigma^2 + n * sigma0^2)], lies strictly between 0 and 1. *)
Theorem posterior_mean_is_weighted_average
    (g : Gaussian RTensor) (sigma s n : RTensor) (G : Graph) :
  dtype s = Gaussian_dtype g ->
  (0 < r_val (Gaussian_sigma g))%R ->
  (0 < r_val sigma)%R ->
  (0 < r_val n)%R ->
  exists (post : Gaussian RTensor) (w : R),
    fst (known_sigma_posterior (PyGaussian g) sigma s n G) = inr post
    /\ (w = r_val sigma * r_val sigma
            / (r_val sigma * r_val sigma + r_val n * variance g))%R
    /\ (0 < w < 1)%R
    /\ (r_val (Gaussian_mu post)
        = w * r_val (Gaussian_mu g) + (1 - w) * (r_val s / r_val n))%R.
Proof.
  intros Hs Ha Hb Hk. apply DType_eqb_eq in Hs.
  exists (PosteriorMean g sigma s n).
  rewrite (posterior_computes g sigma s n G Hs).
  destruct g as [[dm m] [dsd a]]. rewrite real_posterior.
  unfold variance, Gaussian_sigma, Gaussian_mu in *. simpl in *.
  set (b := r_val sigma) in *. set (k := r_val n) in *.
  assert (Haa : (0 < a * a)%R) by (apply Rmult_lt_0_compat; assumption).
  assert (Hbb : (0 < b * b)%R) by (apply Rmult_lt_0_compat; assumption).
  assert (Hkaa : (0 < k * (a * a))%R) by (apply Rmult_lt_0_compat; lra).
  exists (b * b / (b * b + k * (a * a)))%R.
  split; [reflexivity|]. split; [reflexivity|]. split.
  - split.
    + apply Rdiv_lt_0_compat; lra.
    + apply div_lt_bound; lra.
  - field. repeat split; lra.
Qed.

(** X9.  Before any observation ([n = 0], [s = 0]) the predictive is the
    prior widened by the noise: its mean is the prior's mean and its variance
    is the prior's variance plus [sigma^2]. *)
Theorem predictive_before_observation
    (g : Gaussian RTensor) (sigma s n : RTensor) (G : Graph) :
  dtype s = Gaussian_dtype g ->
  (0 < r_val (Gaussian_sigma g))%R ->
  (0 < r_val sigma)%R ->
  r_val n = 0%R ->
  r_val s = 0%R ->
  exists pred : Gaussian RTensor,
    fst (known_sigma_predictive (PyGaussian g) sigma s n G) = inr pred
    /\ r_val (Gaussian_mu pred) = r_val (Gaussian_mu g)
    /\ (variance pred = variance g + r_val sigma * r_val sigma)%R.
Proof.
  intros Hs Ha Hb Hn Hz. apply DType_eqb_eq in Hs.
  exists (PosteriorPredictive g sigma s n).
  rewrite (predictive_computes g sigma s n G Hs). split; [reflexivity|].
  destruct g as [[dm m] [dsd a]]. rewrite real_predictive.
  unfold variance, Gaussian_sigma, Gaussian_mu in *. simpl in *.
  rewrite Hn, Hz.
  set (b := r_val sigma) in *.
  assert (Haa : (0 < a * a)%R) by (apply Rmult_lt_0_compat; assumption).
  assert (Hbb : (0 < b * b)%R) by (apply Rmult_lt_0_compat; assumption).
  assert (Hv : (1 / (1 / (a * a) + 0 / (b * b)) = a * a)%R) by (field; lra).
  rewrite Hv. split; [field; lra|].
  rewrite sqrt_sqrt by lra. reflexivity.
Qed.

(** Two real tensors, and two Gaussians over them, are equal when their
    element types and values are. *)
Lemma RTensor_ext (x y : RTensor) :
  r_dtype x = r_dtype y -> r_val x = r_val y -> x = y.
Proof. destruct x, y. simpl. intros Hd Hv. subst. reflexivity. Qed.

(** X8.  Updates compose.  Taking the posterior of a first batch of
    observations as the prior of a second batch gives the Gaussian that one
    update with the two batches together gives: the sums and the counts
    add. *)
Theorem posterior_updates_compose
    (g : Gaussian RTensor) (sigma s1 n1 s2 n2 s12 n12 : RTensor)
    (G G' G'' : Graph) :
  dtype s1 = Gaussian_dtype g ->
  dtype s2 = Gaussian_dtype g ->
  dtype s12 = Gaussian_dtype g ->
  (0 < r_val (Gaussian_sigma g))%R ->
  (0 < r_val sigma)%R ->
  (0 <= r_val n1)%R ->
  (0 <= r_val n2)%R ->
  r_val s12 = (r_val s1 + r_val s2)%R ->
  r_val n12 = (r_val n1 + r_val n2)%R ->
  exists post1 post2 : Gaussian RTensor,
    fst (known_sigma_posterior (PyGaussian g) sigma s1 n1 G) = inr post1
    /\ fst (known_sigma_posterior (PyGaussian post1) sigma s2 n2 G') = inr post2
    /\ fst (known_sigma_posterior (PyGaussian g) sigma s12 n12 G'') = inr post2.
Proof.
  intros Hs1 Hs2 Hs12 Ha Hb Hk1 Hk2 Hs Hn.
  apply DType_eqb_eq in Hs1. apply DType_eqb_eq in Hs12.
  exists (PosteriorMean g sigma s1 n1),
         (PosteriorMean (PosteriorMean g sigma s1 n1) sigma s2 n2).
  split; [rewrite (posterior_computes g sigma s1 n1 G Hs1); reflexivity|].
  split.
  - rewrite posterior_computes; [reflexivity|].
    apply DType_eqb_eq. rewrite Hs2. reflexivity.
  - rewrite (posterior_computes g sigma s12 n12 G'' Hs12).
    cbn [fst]. apply f_equal.
    destruct g as [[dm m] [dsd a]]. rewrite !real_posterior.
    unfold Gaussian_sigma in *. simpl in *.
    destruct (posterior_variance_closed a (r_val sigma) (r_val n1) Ha Hb Hk1)
      as [Hv [Hpos Hd]].
    rewrite sqrt_sqrt by lra. rewrite Hs, Hn.
    set (b := r_val sigma) in *. set (k1 := r_val n1) in *.
    set (k2 := r_val n2) in *.
    assert (Haa : (0 < a * a)%R) by (apply Rmult_lt_0_compat; assumption).
    assert (Hbb : (0 < b * b)%R) by (apply Rmult_lt_0_compat; assumption).
    assert (Hk2' : (0 <= k2 * (a * a))%R) by (apply Rmult_le_pos; lra).
    assert (Hk1' : (0 <= k1 * (a * a))%R) by (apply Rmult_le_pos; lra).
    assert (Hd2 : (0 < b * b + k1 * (a * a) + k2 * (a * a))%R) by lra.
    assert (Hvar :
      (1 / (1 / (1 / (1 / (a * a) + k1 / (b * b))) + k2 / (b * b))
       = 1 / (1 / (a * a) + (k1 + k2) / (b * b)))%R).
    { field. repeat split; lra. }
    apply f_equal2; apply RTensor_ext; try reflexivity; simpl.
    + rewrite Hvar. field. repeat split; lra.
    + rewrite Hvar. reflexivity.
Qed.

(** X10.  The results follow a shift of the data.  Adding [c] to the prior's
    mean and to each of the [n] observations (so [n * c] to their sum) adds
    [c] to the mean of both results and leaves both standard deviations as
    they are. *)
Theorem results_follow_a_shift
    (g g' : Gaussian RTensor) (sigma s s' n : RTensor) (c : R) (G : Graph) :
  dtype s = Gaussian_dtype g ->
  dtype s' = Gaussian_dtype g' ->
  (0 < r_val (Gaussian_sigma g))%R ->
  (0 < r_val sigma)%R ->
  (0 <= r_val n)%R ->
  r_val (Gaussian_sigma g') = r_val (Gaussian_sigma g) ->
  r_val (Gaussian_mu g') = (r_val (Gaussian_mu g) + c)%R ->
  r_val s' = (r_val s + r_val n * c)%R ->
  exists post post' pred pred' : Gaussian RTensor,
    fst (known_sigma_posterior (PyGaussian g) sigma s n G) = inr post
    /\ fst (known_sigma_posterior (PyGaussian g') sigma s' n G) = inr post'
    /\ fst (known_sigma_predictive (PyGaussian g) sigma s n G) = inr pred
    /\ fst (known_sigma_predictive (PyGaussian g') sigma s' n G) = inr pred'
    /\ r_val (Gaussian_mu post') = (r_val (Gaussian_mu post) + c)%R
    /\ r_val (Gaussian_sigma post') = r_val (Gaussian_sigma post)
    /\ r_val (Gaussian_mu pred') = (r_val (Gaussian_mu pred) + c)%R
    /\ r_val (Gaussian_sigma pred') = r_val (Gaussian_sigma pred).
Proof.
  intros Hs Hs' Ha Hb Hk Hsd Hmu Hsum.
  apply DType_eqb_eq in Hs. apply DType_eqb_eq in Hs'.
  exists (PosteriorMean g sigma s n), (PosteriorMean g' sigma s' n),
         (PosteriorPredictive g sigma s n), (PosteriorPredictive g' sigma s' n).
  rewrite (posterior_computes g sigma s n G Hs).
  rewrite (posterior_computes g' sigma s' n G Hs').
  rewrite (predictive_computes g sigma s n G Hs).
  rewrite (predictive_computes g' sigma s' n G Hs').
  repeat (split; [reflexivity|]).
  destruct g as [[dm m] [dsd a]]. destruct g' as [[dm2 m2] [dsd2 a2]].
  rewrite !real_posterior, !real_predictive.
  unfold Gaussian_sigma, Gaussian_mu in *. simpl in *. subst a2 m2.
  rewrite Hsum.
  destruct (posterior_variance_closed a (r_val sigma) (r_val n) Ha Hb Hk)
    as [Hv [Hpos Hd]].
  set (b := r_val sigma) in *. set (k := r_val n) in *.
  assert (Haa : (0 < a * a)%R) by (apply Rmult_lt_0_compat; assumption).
  assert (Hbb : (0 < b * b)%R) by (apply Rmult_lt_0_compat; assumption).
  assert (Hmean :
    (((m + c) / (a * a) + (r_val s + k * c) / (b * b))
     * (1 / (1 / (a * a) + k / (b * b)))
     = (m / (a * a) + r_val s / (b * b)) * (1 / (1 / (a * a) + k / (b * b)))
       + c)%R) by (field; repeat split; lra).
  repeat split; try reflexivity; exact Hmean.
Qed.

(** ** The further theorems at concrete inputs *)

Lemma deviation_ignores_mean_and_sum_witness :
  exists post post' pred pred' : Gaussian FTensor,
    fst (known_sigma_posterior (PyGaussian fexample_prior)
           fexample_sigma fexample_s fexample_n []) = inr post
    /\ fst (known_sigma_posterior (PyGaussian (FGaussian 5 1))
              fexample_sigma (fconst 2) fexample_n []) = inr post'
    /\ fst (known_sigma_predictive (PyGaussian fexample_prior)
              fexample_sigma fexample_s fexample_n []) = inr pred
    /\ fst (known_sigma_predictive (PyGaussian (FGaussian 5 1))
              fexample_sigma (fconst 2) fexample_n []) = inr pred'
    /\ Gaussian_sigma post = Gaussian_sigma post'
    /\ Gaussian_sigma pred = Gaussian_sigma pred'.
Proof.
  exact (deviation_ignores_mean_and_sum (RT := Binary64Runtime)
           fexample_prior (FGaussian 5 1) fexample_sigma fexample_s (fconst 2)
           fexample_n [] [] eq_refl eq_refl eq_refl eq_refl).
Defined.

Lemma example_is_valid :
  (0 < r_val (Gaussian_sigma example_prior))%R
  /\ (0 < r_val example_sigma)%R
  /\ (0 < r_val example_n)%R.
Proof. simpl. repeat split; lra. Qed.

Lemma posterior_precisions_add_witness :
  exists post : Gaussian RTensor,
    fst (known_sigma_posterior (PyGaussian example_prior)
           example_sigma example_s example_n []) = inr post
    /\ (0 < r_val (Gaussian_sigma post))%R
    /\ (/ variance post
        = / variance example_prior
          + r_val example_n * / (r_val example_sigma * r_val example_sigma))%R.
Proof.
  destruct example_is_valid as [Ha [Hb Hn]].
  exact (posterior_precisions_add example_prior example_sigma example_s
           example_n [] eq_refl Ha Hb (Rlt_le _ _ Hn)).
Defined.

Lemma posterior_variance_shrinks_witness :
  exists post : Gaussian RTensor,
    fst (known_sigma_posterior (PyGaussian example_prior)
           example_sigma example_s example_n []) = inr post
    /\ (variance post < variance example_prior)%R
    /\ (variance post
        < r_val example_sigma * r_val example_sigma / r_val example_n)%R.
Proof.
  destruct example_is_valid as [Ha [Hb Hn]].
  destruct (posterior_variance_shrinks example_prior example_sigma example_s
              example_n [] eq_refl Ha Hb (Rlt_le _ _ Hn))
    as [post [Hrun [_ Hlt]]].
  exists post. split; [exact Hrun | exact (Hlt Hn)].
Defined.

Lemma predictive_variance_is_posterior_plus_noise_witness :
  exists post pred : Gaussian RTensor,
    fst (known_sigma_posterior (PyGaussian example_prior)
           example_sigma example_s example_n []) = inr post
    /\ fst (known_sigma_predictive (PyGaussian example_prior)
              example_sigma example_s example_n []) = inr pred
    /\ (variance pred
        = variance post + r_val example_sigma * r_val example_sigma)%R.
Proof.
  destruct example_is_valid as [Ha [Hb Hn]].
  exact (predictive_variance_is_posterior_plus_noise example_prior
           example_sigma example_s example_n [] eq_refl Ha Hb (Rlt_le _ _ Hn)).
Defined.

Lemma posterior_mean_is_weighted_average_witness :
  exists (post : Gaussian RTensor) (w : R),
    fst (known_sigma_posterior (PyGaussian example_prior)
           example_sigma example_s example_n []) = inr post
    /\ (w = r_val example_sigma * r_val example_sigma
            / (r_val example_sigma * r_val example_sigma
               + r_val example_n * variance example_prior))%R
    /\ (0 < w < 1)%R
    /\ (r_val (Gaussian_mu post)
        = w * r_val (Gaussian_mu example_prior)
          + (1 - w) * (r_val example_s / r_val example_n))%R.
Proof.
  destruct example_is_valid as [Ha [Hb Hn]].
  exact (posterior_mean_is_weighted_average example_prior example_sigma
           example_s example_n [] eq_refl Ha Hb Hn).
Defined.

(** Ten observations of sum [10], then five of sum [5], against fifteen of
    sum [15]. *)
Lemma posterior_updates_compose_witness :
  exists post1 post2 : Gaussian RTensor,
    fst (known_sigma_posterior (PyGaussian example_prior)
           example_sigma example_s example_n []) = inr post1
    /\ fst (known_sigma_posterior (PyGaussian post1)
              example_sigma (rconst float32 5) (rcount 5) []) = inr post2
    /\ fst (known_sigma_posterior (PyGaussian example_prior)
              example_sigma (rconst float32 15) (rcount 15) []) = inr post2.
Proof.
  destruct example_is_valid as [Ha [Hb Hn]].
  assert (H5 : (0 <= r_val (rcount 5))%R) by (simpl; lra).
  assert (Hs : r_val (rconst float32 15)
               = (r_val example_s + r_val (rconst float32 5))%R)
    by (simpl; lra).
  assert (Hc : r_val (rcount 15) = (r_val example_n + r_val (rcount 5))%R)
    by (simpl; lra).
  exact (posterior_updates_compose example_prior example_sigma
           example_s example_n (rconst float32 5) (rcount 5)
           (rconst float32 15) (rcount 15) [] [] []
           eq_refl eq_refl eq_refl Ha Hb (Rlt_le _ _ Hn) H5 Hs Hc).
Defined.

Lemma predictive_before_observation_witness :
  exists pred : Gaussian RTensor,
    fst (known_sigma_predictive (PyGaussian example_prior)
           example_sigma (rconst float32 0) no_observation []) = inr pred
    /\ r_val (Gaussian_mu pred) = r_val (Gaussian_mu example_prior)
    /\ (variance pred
        = variance example_prior
          + r_val example_sigma * r_val example_sigma)%R.
Proof.
  destruct example_is_valid as [Ha [Hb Hn]].
  exact (predictive_before_observation example_prior example_sigma
           (rconst float32 0) no_observation [] eq_refl Ha Hb eq_refl eq_refl).
Defined.

(** The example moved by [3]: prior mean [3], sum [10 + 10 * 3]. *)
Lemma results_follow_a_shift_witness :
  exists post post' pred pred' : Gaussian RTensor,
    fst (known_sigma_posterior (PyGaussian example_prior)
           example_sigma example_s example_n []) = inr post
    /\ fst (known_sigma_posterior (PyGaussian (RGaussian float32 3 1))
              example_sigma (rconst float32 40) example_n []) = inr post'
    /\ fst (known_sigma_predictive (PyGaussian example_prior)
              example_sigma example_s example_n []) = inr pred
    /\ fst (known_sigma_predictive (PyGaussian (RGaussian float32 3 1))
              example_sigma (rconst float32 40) example_n []) = inr pred'
    /\ r_val (Gaussian_mu post') = (r_val (Gaussian_mu post) + 3)%R
    /\ r_val (Gaussian_sigma post') = r_val (Gaussian_sigma post)
    /\ r_val (Gaussian_mu pred') = (r_val (Gaussian_mu pred) + 3)%R
    /\ r_val (Gaussian_sigma pred') = r_val (Gaussian_sigma pred).
Proof.
  destruct example_is_valid as [Ha [Hb Hn]].
  assert (Hmu : r_val (Gaussian_mu (RGaussian float32 3 1))
                = (r_val (Gaussian_mu example_prior) + 3)%R) by (simpl; lra).
  assert (Hsum : r_val (rconst float32 40)
                 = (r_val example_s + r_val example_n * 3)%R) by (simpl; lra).
  exact (results_follow_a_shift example_prior (RGaussian float32 3 1)
           example_sigma example_s (rconst float32 40) example_n 3 []
           eq_refl eq_refl Ha Hb (Rlt_le _ _ Hn) eq_refl Hmu Hsum).
Defined.
